(** * Proxmox VE HA select entities: a shallow embedding of
      [custom_components/proxmoxve/select.py] and of the HA coordinator it
      reads, with the properties of the specification proved over it. *)

From Stdlib Require Import String Ascii List ZArith Bool Lia.
From stdpp Require Import base option gmap strings list.

Open Scope string_scope.
Set Warnings "-register-all".

(** ** Python values of a decoded API response *)

Module Py.

(** A JSON-like Python object: what [poll_api] hands back.  A [dict] with
    string keys is kept as the list of its items. *)
Inductive value :=
| VNone
| VBool (b : bool)
| VInt (z : Z)
| VStr (s : string)
| VList (l : list value)
| VDict (kvs : list (string * value)).

(** [d.get(key)] *)
Fixpoint dict_get (key : string) (kvs : list (string * value)) : option value :=
  match kvs with
  | [] => None
  | (k, v) :: rest => if String.eqb k key then Some v else dict_get key rest
  end.

(** [isinstance(v, dict)] *)
Definition is_mapping (v : value) : bool :=
  match v with VDict _ => true | _ => false end.

(** [x in xs] for a list of strings: Python compares with [==]. *)
Definition str_in (x : string) (xs : list string) : bool :=
  existsb (String.eqb x) xs.

(** Whether [needle] occurs in [hay] ([needle in hay] on two [str]). *)
Fixpoint contains (needle hay : string) : bool :=
  String.prefix needle hay
  || match hay with
     | EmptyString => false
     | String _ rest => contains needle rest
     end.

End Py.

(** ** Constants of [const.py] *)

(** [const.py] is not among the sources.  [select.py] uses the members of
    the enumeration [ProxmoxHAState] (name and value, in definition order)
    and three members of the string enumeration [ProxmoxType]; they are taken as
    a parameter of the development. *)
Record Const := {
  ProxmoxHAState : list (string * string);
  ProxmoxType_Resources : string;
  ProxmoxType_QEMU : string;
  ProxmoxType_LXC : string
}.

(** ** Resource data model *)

Module Models.

(** Modelled from the spec: [models.py] is not among the sources; the
    fields are those of section 3 of the specification and of the
    constructor call in [tests/test_select.py]: [state] is a string, the six
    last fields are optional pass-through metadata. *)
Record ProxmoxHAResourceData := {
  sid : string;
  type : string;
  vmid : Z;
  state : string;
  group : option Py.value;
  status : option Py.value;
  request_state : option Py.value;
  max_relocate : option Py.value;
  max_restart : option Py.value;
  digest : option Py.value
}.

End Models.

(** ** The HA coordinator *)

Module Coordinator.
Import Models.

(** What an entity can read of a coordinator: its snapshot ([None] before
    the first refresh) and the flag of the last refresh. *)
Record ProxmoxHACoordinator := {
  data : option (gmap string ProxmoxHAResourceData);
  last_update_success : bool
}.

(** The platform's session context ([hass]). *)
Record HomeAssistant := { hass_id : nat }.

(** Modelled from the spec: the resource-type prefixes of an [sid]
    (section 3: [vm:] or [ct:]). *)
Definition RESOURCE_TYPES : list string := ["vm"; "ct"].

Definition digit_of_ascii (a : ascii) : option Z :=
  let n := Z.of_nat (nat_of_ascii a) in
  if (48 <=? n)%Z && (n <=? 57)%Z then Some (n - 48)%Z else None.

Fixpoint parse_digits (s : string) (acc : Z) : option Z :=
  match s with
  | EmptyString => Some acc
  | String a rest =>
      match digit_of_ascii a with
      | Some d => parse_digits rest (10 * acc + d)%Z
      | None => None
      end
  end.

(** Modelled from the spec: the numeric suffix of an [sid]; a suffix that is
    empty or has a character that is no decimal digit has no value. *)
Definition parse_vmid (s : string) : option Z :=
  match s with
  | EmptyString => None
  | _ => parse_digits s 0%Z
  end.

(** Modelled from the spec: the recognized resource type whose name,
    followed by a colon, starts [s]. *)
Definition sid_type (s : string) : option string :=
  find (fun p => String.prefix (p +:+ ":") s) RESOURCE_TYPES.

(** Modelled from the spec: the [sid] of a list element, when the element is
    a mapping with a string under ["sid"] that starts with a recognized
    prefix. *)
Definition recognized_sid (item : Py.value) : option (string * string) :=
  match item with
  | Py.VDict kvs =>
      match Py.dict_get "sid" kvs with
      | Some (Py.VStr s) =>
          match sid_type s with
          | Some p => Some (s, p)
          | None => None
          end
      | _ => None
      end
  | _ => None
  end.

(** Modelled from the spec: one list element of the payload as a record
    (section 4.1); [None] for an element that is dropped.  The spec does not
    say which state an accepted element without a string under ["state"]
    gets: it is the argument [missing_state]. *)
Definition parse_resource (missing_state : string) (item : Py.value)
  : option ProxmoxHAResourceData :=
  match item with
  | Py.VDict kvs =>
      match recognized_sid item with
      | Some (s, p) =>
          let suffix := substring (String.length p + 1)
                                  (String.length s - (String.length p + 1)) s in
          match parse_vmid suffix with
          | Some n =>
              Some {| sid := s;
                      type := p;
                      vmid := n;
                      state := match Py.dict_get "state" kvs with
                               | Some (Py.VStr st) => st
                               | _ => missing_state
                               end;
                      group := Py.dict_get "group" kvs;
                      status := Py.dict_get "status" kvs;
                      request_state := Py.dict_get "request_state" kvs;
                      max_relocate := Py.dict_get "max_relocate" kvs;
                      max_restart := Py.dict_get "max_restart" kvs;
                      digest := Py.dict_get "digest" kvs |}
          | None => None
          end
      | None => None
      end
  | _ => None
  end.

(** Modelled from the spec: the loop over the list elements, filling the
    result mapping keyed by [sid]. *)
Definition normalize_items (missing_state : string) (items : list Py.value)
  : gmap string ProxmoxHAResourceData :=
  fold_left
    (fun result item =>
       match parse_resource missing_state item with
       | Some r => <[sid r := r]> result
       | None => result
       end)
    items ∅.

(** Modelled from the spec: the list of a raw response: the value under
    ["data"] when the response is a mapping with that key, the response
    itself otherwise.  The contract of section 4.1 covers these two shapes
    only; any other shape has no list. *)
Definition payload_items (raw : Py.value) : option (list Py.value) :=
  let chosen :=
    match raw with
    | Py.VDict kvs =>
        match Py.dict_get "data" kvs with
        | Some v => v
        | None => raw
        end
    | _ => raw
    end in
  match chosen with
  | Py.VList l => Some l
  | _ => None
  end.

(** Modelled from the spec: the payload normalizer of section 4.1. *)
Definition normalize (missing_state : string) (raw : Py.value)
  : option (gmap string ProxmoxHAResourceData) :=
  match payload_items raw with
  | Some items => Some (normalize_items missing_state items)
  | None => None
  end.

(** The claim's words for an element that is skipped: not a mapping, or no
    [sid] that begins with a recognized prefix followed by a colon. *)
Definition excluded (item : Py.value) : bool :=
  negb (Py.is_mapping item)
  || match recognized_sid item with
     | Some _ => false
     | None => true
     end.

(** Modelled from the spec: how one poll ends (section 4.2 and
    [tests/test_coordinator_ha.py]). *)
Inductive poll_result :=
| Returned (raw : Py.value)
| ConfigEntryAuthFailed
| UpdateFailed (msg : string)
| Unclassified (msg : string).

(** The coordinator together with the calls of the platform's
    re-authentication trigger, each with the session context it got. *)
Record RefreshState := {
  coordinator : ProxmoxHACoordinator;
  start_reauth_calls : list HomeAssistant
}.

Definition failed_update (st : RefreshState) (reauth : list HomeAssistant)
  : RefreshState :=
  {| coordinator := {| data := data (coordinator st);
                       last_update_success := false |};
     start_reauth_calls := start_reauth_calls st ++ reauth |}.

Definition successful_update (st : RefreshState)
    (snapshot : gmap string ProxmoxHAResourceData) : RefreshState :=
  {| coordinator := {| data := Some snapshot;
                       last_update_success := true |};
     start_reauth_calls := start_reauth_calls st |}.

(** Modelled from the spec: one refresh of [ProxmoxHACoordinator]
    ([coordinator.py] is not among the sources), section 4.2: a payload
    replaces the snapshot; an authentication failure marks the update failed,
    keeps the snapshot and starts re-authentication with the session context;
    a feature-absent or generic fetch failure gives the empty snapshot and a
    successful update; anything else is a failed update that keeps the
    snapshot.  A payload outside the normalizer's contract counts as such an
    unclassified failure. *)
Definition async_refresh (missing_state : string) (hass : HomeAssistant)
    (poll : poll_result) (st : RefreshState) : RefreshState :=
  match poll with
  | Returned raw =>
      match normalize missing_state raw with
      | Some snapshot => successful_update st snapshot
      | None => failed_update st []
      end
  | ConfigEntryAuthFailed => failed_update st [hass]
  | UpdateFailed _ => successful_update st ∅
  | Unclassified _ => failed_update st []
  end.

End Coordinator.

(** ** The select platform, [select.py] *)

Module Select.
Import Models Coordinator.

(** The API handle that [get_api_client] returns. *)
Record ProxmoxAPI := { api_id : nat }.

Record ProxmoxClient := { get_api_client : ProxmoxAPI }.

(** The arguments [device_info] is called with, besides [hass] and the
    config entry; the device registry is outside this module. *)
Record DeviceInfo := {
  api_category : string;
  resource_id : string
}.

Definition device_info (api_category resource_id : string) : DeviceInfo :=
  {| api_category := api_category; resource_id := resource_id |}.

Record ProxmoxSelectEntityDescription := {
  key : string;
  icon : string;
  name : string;
  translation_key : string;
  options : list string
}.

(** [[state.value for state in ProxmoxHAState]] *)
Definition ha_state_values (c : Const) : list string :=
  map (fun state => snd state) (ProxmoxHAState c).

Definition PROXMOX_SELECT_HA_STATE (c : Const) : ProxmoxSelectEntityDescription :=
  {| key := "ha_state";
     icon := "mdi:shield-sync";
     name := "HA state";
     translation_key := "ha_state";
     options := ha_state_values c |}.

(** What [async_setup_entry] reads of the config entry: its id, the
    configured identifiers (as their [str]) and the runtime data. *)
Record ConfigEntry := {
  entry_id : string;
  data_CONF_QEMU : list string;
  data_CONF_LXC : list string;
  runtime_data_COORDINATORS : gmap string ProxmoxHACoordinator;
  runtime_data_PROXMOX_CLIENT : ProxmoxClient
}.

(** The entity.  Its [coordinator] attribute is a reference to the shared
    HA coordinator: the properties below read that coordinator's state at
    the time of the access, which is their first argument. *)
Record ProxmoxHASelectEntity := {
  unique_id : string;
  entity_description : ProxmoxSelectEntityDescription;
  _attr_device_info : DeviceInfo;
  _proxmox_client : ProxmoxClient;
  _sid : string
}.

(** [k in d] on a dict *)
Definition dict_in {V} (k : string) (d : gmap string V) : bool :=
  bool_decide (is_Some (d !! k)).

(** The body of the loop over [CONF_QEMU]. *)
Definition qemu_step (c : Const) (config_entry : ConfigEntry)
    (ha_resources : gmap string ProxmoxHAResourceData)
    (selects : list ProxmoxHASelectEntity) (vm_id : string)
  : list ProxmoxHASelectEntity :=
  let coordinators := runtime_data_COORDINATORS config_entry in
  let sid := "vm:" +:+ vm_id in
  if negb (dict_in sid ha_resources) then selects
  else if negb (dict_in (ProxmoxType_QEMU c +:+ "_" +:+ vm_id) coordinators)
  then selects
  else
    selects ++
    [ {| unique_id := entry_id config_entry +:+ "_" +:+ vm_id +:+ "_ha_state";
         entity_description := PROXMOX_SELECT_HA_STATE c;
         _attr_device_info := device_info (ProxmoxType_QEMU c) vm_id;
         _proxmox_client := runtime_data_PROXMOX_CLIENT config_entry;
         _sid := sid |} ].

(** The body of the loop over [CONF_LXC]. *)
Definition lxc_step (c : Const) (config_entry : ConfigEntry)
    (ha_resources : gmap string ProxmoxHAResourceData)
    (selects : list ProxmoxHASelectEntity) (ct_id : string)
  : list ProxmoxHASelectEntity :=
  let coordinators := runtime_data_COORDINATORS config_entry in
  let sid := "ct:" +:+ ct_id in
  if negb (dict_in sid ha_resources) then selects
  else if negb (dict_in (ProxmoxType_LXC c +:+ "_" +:+ ct_id) coordinators)
  then selects
  else
    selects ++
    [ {| unique_id := entry_id config_entry +:+ "_" +:+ ct_id +:+ "_ha_state";
         entity_description := PROXMOX_SELECT_HA_STATE c;
         _attr_device_info := device_info (ProxmoxType_LXC c) ct_id;
         _proxmox_client := runtime_data_PROXMOX_CLIENT config_entry;
         _sid := sid |} ].

(** [async_setup_entry]: the list handed to [async_add_entities], or [None]
    when the function returns without calling it. *)
Definition async_setup_entry (c : Const) (config_entry : ConfigEntry)
  : option (list ProxmoxHASelectEntity) :=
  let selects := [] in
  let coordinators := runtime_data_COORDINATORS config_entry in
  match coordinators !! (ProxmoxType_Resources c +:+ "_ha") with
  | None => None
  | Some ha_coordinator =>
      match data ha_coordinator with
      | None => None
      | Some ha_resources =>
          let selects :=
            fold_left (qemu_step c config_entry ha_resources)
                      (data_CONF_QEMU config_entry) selects in
          let selects :=
            fold_left (lxc_step c config_entry ha_resources)
                      (data_CONF_LXC config_entry) selects in
          Some selects
      end
  end.

(** The spec's words for the entities of a setup: one per configured
    identifier whose [sid] is in the HA snapshot and whose per-type
    coordinator exists. *)
Definition qualifies (prefix type_name : string)
    (ha_resources : gmap string ProxmoxHAResourceData)
    (coordinators : gmap string ProxmoxHACoordinator) (id : string) : bool :=
  dict_in (prefix +:+ id) ha_resources
  && dict_in (type_name +:+ "_" +:+ id) coordinators.

Definition entity_for (c : Const) (config_entry : ConfigEntry)
    (prefix type_name id : string) : ProxmoxHASelectEntity :=
  {| unique_id := entry_id config_entry +:+ "_" +:+ id +:+ "_ha_state";
     entity_description := PROXMOX_SELECT_HA_STATE c;
     _attr_device_info := device_info type_name id;
     _proxmox_client := runtime_data_PROXMOX_CLIENT config_entry;
     _sid := prefix +:+ id |}.

Definition expected_selects (c : Const) (config_entry : ConfigEntry)
    (ha_resources : gmap string ProxmoxHAResourceData)
  : list ProxmoxHASelectEntity :=
  let coordinators := runtime_data_COORDINATORS config_entry in
  map (entity_for c config_entry "vm:" (ProxmoxType_QEMU c))
      (filter (fun id => qualifies "vm:" (ProxmoxType_QEMU c)
                                   ha_resources coordinators id = true)
              (data_CONF_QEMU config_entry))
  ++
  map (entity_for c config_entry "ct:" (ProxmoxType_LXC c))
      (filter (fun id => qualifies "ct:" (ProxmoxType_LXC c)
                                   ha_resources coordinators id = true)
              (data_CONF_LXC config_entry)).

(** [current_option] *)
Definition current_option (coordinator : ProxmoxHACoordinator)
    (self : ProxmoxHASelectEntity) : option string :=
  match data coordinator with
  | None => None
  | Some d =>
      match d !! _sid self with
      | None => None
      | Some resource => Some (state resource)
      end
  end.

(** [available].  [ProxmoxEntity] ([entity.py]) is not among the sources:
    what [super().available] gives is the argument [super_available]. *)
Definition available (super_available : bool)
    (coordinator : ProxmoxHACoordinator) (self : ProxmoxHASelectEntity) : bool :=
  super_available
  && match data coordinator with
     | None => false
     | Some d => dict_in (_sid self) d
     end.

(** *** Exceptions, effects and [async_select_option] *)

(** The exceptions this module catches or raises.  [HomeAssistantError]
    carries its message and its [__cause__]. *)
Inductive exn :=
| ResourceException (msg : string)
| ConnectTimeout (msg : string)
| OtherException (msg : string)
| HomeAssistantError (msg : string) (cause : option exn).

(** [str(error)] *)
Definition exn_str (error : exn) : string :=
  match error with
  | ResourceException msg => msg
  | ConnectTimeout msg => msg
  | OtherException msg => msg
  | HomeAssistantError msg _ => msg
  end.

(** The calls that leave the entity, in the order they are made. *)
Inductive event :=
| PutApi (proxmox : ProxmoxAPI) (api_path : string) (state : string)
| LoggerDebug (msg : string)
| RequestRefresh.

(** The calls made so far and the shared HA coordinator. *)
Record World := {
  trace : list event;
  coordinator : ProxmoxHACoordinator
}.

(** A computation that may raise and that acts on the world. *)
Definition M (A : Type) : Type := World -> (exn + A) * World.

#[export] Instance M_ret : MRet M := fun A a w => (inr a, w).

#[export] Instance M_bind : MBind M := fun A B k m w =>
  match m w with
  | (inl e, w') => (inl e, w')
  | (inr a, w') => k a w'
  end.

Definition raise {A} (e : exn) : M A := fun w => (inl e, w).

(** [try: m except ... as error: handler error] *)
Definition try_except {A} (m : M A) (handler : exn -> M A) : M A :=
  fun w =>
    match m w with
    | (inl e, w') => handler e w'
    | (inr a, w') => (inr a, w')
    end.

Definition emit (ev : event) : M unit :=
  fun w => (inr tt, {| trace := trace w ++ [ev]; coordinator := coordinator w |}).

Section AsyncSelectOption.

(** The enumeration and the type names of [const.py]. *)
Variable c : Const.

(** [api.py] is not among the sources: what the write call raises for a
    handle, a path and a [state], [None] when it returns. *)
Variable put_api : ProxmoxAPI -> string -> string -> option exn.

(** The platform's [async_request_refresh]: what awaiting it does to the
    coordinator is the platform's and the coordinator's own business. *)
Variable async_request_refresh : ProxmoxHACoordinator -> ProxmoxHACoordinator.

(** [await self.hass.async_add_executor_job(partial(put_api, proxmox,
    api_path, state=option))]: the call is made, then it returns or raises. *)
Definition call_put_api (proxmox : ProxmoxAPI) (api_path option : string) : M unit :=
  emit (PutApi proxmox api_path option);;
  match put_api proxmox api_path option with
  | Some error => raise error
  | None => mret tt
  end.

(** [await self.coordinator.async_request_refresh()] *)
Definition call_request_refresh : M unit :=
  fun w =>
    (inr tt, {| trace := trace w ++ [RequestRefresh];
                coordinator := async_request_refresh (coordinator w) |}).

Definition async_select_option (self : ProxmoxHASelectEntity) (option : string)
  : M unit :=
  if negb (Py.str_in option (ha_state_values c)) then
    let msg := "Invalid HA state: " +:+ option in
    raise (HomeAssistantError msg None)
  else
    let proxmox := get_api_client (_proxmox_client self) in
    let api_path := "cluster/ha/resources/" +:+ _sid self in
    try_except
      (call_put_api proxmox api_path option)
      (fun error =>
         match error with
         | ResourceException _ =>
             let msg := "Failed to set HA state for " +:+ _sid self +:+ " to "
                        +:+ option +:+ ": " +:+ exn_str error in
             raise (HomeAssistantError msg (Some error))
         | ConnectTimeout _ =>
             let msg := "Timeout setting HA state for " +:+ _sid self +:+ ": "
                        +:+ exn_str error in
             raise (HomeAssistantError msg (Some error))
         | _ => raise error
         end);;
    emit (LoggerDebug ("Set HA state for " +:+ _sid self +:+ " to " +:+ option));;
    call_request_refresh.

End AsyncSelectOption.

(** The path and the write call of an entity, as [async_select_option]
    builds them. *)
Definition path_of (self : ProxmoxHASelectEntity) : string :=
  "cluster/ha/resources/" +:+ _sid self.

Definition put_of (self : ProxmoxHASelectEntity) (option : string) : event :=
  PutApi (get_api_client (_proxmox_client self)) (path_of self) option.

(** The write calls and the number of refresh requests of a trace. *)
Definition write_calls (t : list event) : list (ProxmoxAPI * string * string) :=
  flat_map (fun ev => match ev with
                      | PutApi proxmox api_path state => [(proxmox, api_path, state)]
                      | _ => []
                      end) t.

Definition refresh_requests (t : list event) : nat :=
  length (List.filter (fun ev => match ev with RequestRefresh => true | _ => false end) t).

End Select.

(** ** Concrete values for the examples *)

Module Sample.
Import Models Coordinator Select.

(** Modelled from the spec: the enumeration of HA states named in section 3
    (started, stopped, disabled, ignored, migrate); the three type names are
    an instance for the examples. *)
Definition const : Const :=
  {| ProxmoxHAState := [("STARTED", "started"); ("STOPPED", "stopped");
                        ("DISABLED", "disabled"); ("IGNORED", "ignored");
                        ("MIGRATE", "migrate")];
     ProxmoxType_Resources := "resources";
     ProxmoxType_QEMU := "qemu";
     ProxmoxType_LXC := "lxc" |}.

(** [_build_ha_resource] of [tests/test_select.py] *)
Definition build_ha_resource (sid type : string) (vmid : Z) (state : string)
  : ProxmoxHAResourceData :=
  {| sid := sid; type := type; vmid := vmid; state := state;
     group := None; status := None; request_state := None;
     max_relocate := None; max_restart := None; digest := None |}.

Definition client : ProxmoxClient := {| get_api_client := {| api_id := 0 |} |}.

(** The entity of [_build_select_entity]. *)
Definition entity : ProxmoxHASelectEntity :=
  {| unique_id := "test_unique_id";
     entity_description := PROXMOX_SELECT_HA_STATE const;
     _attr_device_info := device_info "qemu" "101";
     _proxmox_client := client;
     _sid := "vm:101" |}.

Definition ha_coordinator : ProxmoxHACoordinator :=
  {| data := Some {[ "vm:101" := build_ha_resource "vm:101" "vm" 101 "started" ]};
     last_update_success := true |}.

Definition world : World := {| trace := []; coordinator := ha_coordinator |}.

(** A coordinator whose snapshot lacks ["vm:101"]. *)
Definition other_coordinator : ProxmoxHACoordinator :=
  {| data := Some {[ "ct:100" := build_ha_resource "ct:100" "ct" 100 "stopped" ]};
     last_update_success := true |}.

(** The payload of the claim on the normalizer. *)
Definition payload : Py.value :=
  Py.VDict [("data", Py.VList [
    Py.VDict [("sid", Py.VStr "vm:101"); ("state", Py.VStr "started")];
    Py.VDict [("sid", Py.VStr "ct:100"); ("state", Py.VStr "stopped")];
    Py.VDict [("sid", Py.VStr "node:abc"); ("state", Py.VStr "started")];
    Py.VStr "garbage"])].

Definition hass : HomeAssistant := {| hass_id := 1 |}.

(** The platform's refresh as the coordinator model has it, for a poll that
    returns [payload]. *)
Definition refresh_with_payload (co : ProxmoxHACoordinator) : ProxmoxHACoordinator :=
  Coordinator.coordinator
    (async_refresh "" hass (Returned payload)
       {| Coordinator.coordinator := co; start_reauth_calls := [] |}).

(** The setup scenario of [tests/test_select.py]: the coordinator mapping
    with the HA coordinator and the coordinators of VM 101 and container 100,
    an HA snapshot with both resources started, and the config entry. *)
Definition setup_coordinators (c : Const)
    (ha qemu_101 lxc_100 : ProxmoxHACoordinator)
  : gmap string ProxmoxHACoordinator :=
  <[ProxmoxType_Resources c +:+ "_ha" := ha]>
    (<[ProxmoxType_QEMU c +:+ "_101" := qemu_101]>
       (<[ProxmoxType_LXC c +:+ "_100" := lxc_100]> ∅)).

Definition setup_snapshot : gmap string ProxmoxHAResourceData :=
  <["vm:101" := build_ha_resource "vm:101" "vm" 101 "started"]>
    (<["ct:100" := build_ha_resource "ct:100" "ct" 100 "started"]> ∅).

Definition setup_ha_coordinator : ProxmoxHACoordinator :=
  {| data := Some setup_snapshot; last_update_success := true |}.

Definition setup_config_entry (c : Const) (entry_id : string)
    (qemu_101 lxc_100 : ProxmoxHACoordinator) : ConfigEntry :=
  {| entry_id := entry_id;
     data_CONF_QEMU := ["101"];
     data_CONF_LXC := ["100"];
     runtime_data_COORDINATORS :=
       setup_coordinators c setup_ha_coordinator qemu_101 lxc_100;
     runtime_data_PROXMOX_CLIENT := client |}.

(** Three write calls: one that returns, one that times out, one that the
    API refuses. *)
Definition put_api_ok (_ : ProxmoxAPI) (_ _ : string) : option exn := None.

Definition put_api_times_out (_ : ProxmoxAPI) (_ _ : string) : option exn :=
  Some (ConnectTimeout "timed out").

Definition put_api_refused (_ : ProxmoxAPI) (_ _ : string) : option exn :=
  Some (ResourceException "500 Internal Server Error").

(** A config entry with the identifier 101 configured as a VM and as a
    container, both HA-managed and both with a coordinator. *)
Definition shared_id_snapshot : gmap string ProxmoxHAResourceData :=
  <["ct:101" := build_ha_resource "ct:101" "ct" 101 "started"]>
    (<["vm:101" := build_ha_resource "vm:101" "vm" 101 "started"]> ∅).

Definition shared_id_ha_coordinator : ProxmoxHACoordinator :=
  {| data := Some shared_id_snapshot; last_update_success := true |}.

Definition shared_id_config_entry : ConfigEntry :=
  {| entry_id := "entry";
     data_CONF_QEMU := ["101"];
     data_CONF_LXC := ["101"];
     runtime_data_COORDINATORS :=
       <["lxc_101" := other_coordinator]>
         (<["qemu_101" := other_coordinator]>
            (<["resources_ha" := shared_id_ha_coordinator]> ∅));
     runtime_data_PROXMOX_CLIENT := client |}.

End Sample.

(** * Properties *)

Import Models Coordinator Select.

(** ** Strings *)

Lemma prefix_append (n r : string) : String.prefix n (n +:+ r) = true.
Proof.
  induction n as [|a n IH]; simpl.
  - by destruct r.
  - by destruct (ascii_dec a a).
Qed.

Lemma contains_here (n r : string) : Py.contains n (n +:+ r) = true.
Proof.
  destruct n as [|a n]; simpl.
  - by destruct r.
  - destruct (ascii_dec a a); [|done]. by rewrite prefix_append.
Qed.

Lemma contains_refl (n : string) : Py.contains n n = true.
Proof.
  assert (String.prefix n n = true) as H.
  { induction n as [|a n IH]; simpl; [done|]. by destruct (ascii_dec a a). }
  destruct n; simpl in *; [done|]. by rewrite H.
Qed.

Lemma contains_skip (n p h : string) :
  Py.contains n h = true → Py.contains n (p +:+ h) = true.
Proof.
  intros Hh. induction p as [|a p IH]; simpl; [done|].
  rewrite IH. apply orb_true_r.
Qed.

Lemma str_in_In (x : string) (xs : list string) :
  Py.str_in x xs = true ↔ In x xs.
Proof.
  unfold Py.str_in. rewrite existsb_exists. split.
  - intros (y & Hy & Heq). apply String.eqb_eq in Heq. by subst.
  - intros Hx. exists x. split; [done|]. apply String.eqb_refl.
Qed.

(** ** The coordinator *)

(** C1: a refresh whose poll raises the feature-absent or generic fetch
    failure leaves the empty mapping as the coordinator's data and
    [last_update_success] true; nothing is surfaced: no re-authentication is
    started. *)
Theorem refresh_absorbs_update_failed
    (missing_state : string) (hass : HomeAssistant) (msg : string)
    (st : RefreshState) :
  let st' := async_refresh missing_state hass (UpdateFailed msg) st in
  data (Coordinator.coordinator st') = Some ∅
  ∧ last_update_success (Coordinator.coordinator st') = true
  ∧ start_reauth_calls st' = start_reauth_calls st.
Proof. by cbn. Qed.

(** C7: a refresh whose poll raises the authentication failure leaves
    [last_update_success] false, calls the re-authentication trigger exactly
    once, with the session context, and keeps the previous snapshot. *)
Theorem refresh_auth_failure_starts_reauth
    (missing_state : string) (hass : HomeAssistant) (st : RefreshState) :
  let st' := async_refresh missing_state hass ConfigEntryAuthFailed st in
  last_update_success (Coordinator.coordinator st') = false
  ∧ start_reauth_calls st' = (start_reauth_calls st ++ [hass])%list
  ∧ data (Coordinator.coordinator st') = data (Coordinator.coordinator st).
Proof. by cbn. Qed.

(** ** The normalizer *)

Lemma excluded_parse_resource (missing_state : string) (item : Py.value) :
  excluded item = true → parse_resource missing_state item = None.
Proof.
  unfold excluded, parse_resource.
  destruct item as [| | | | |kvs]; try done.
  cbn [Py.is_mapping negb orb].
  by destruct (recognized_sid (Py.VDict kvs)) as [[s p]|].
Qed.

Lemma normalize_fold_filter (missing_state : string) (items : list Py.value)
    (acc : gmap string ProxmoxHAResourceData) :
  fold_left
    (fun result item =>
       match parse_resource missing_state item with
       | Some r => <[sid r := r]> result
       | None => result
       end) items acc
  = fold_left
      (fun result item =>
         match parse_resource missing_state item with
         | Some r => <[sid r := r]> result
         | None => result
         end) (filter (fun item => excluded item = false) items) acc.
Proof.
  revert acc. induction items as [|item items IH]; intros acc; [done|].
  destruct (excluded item) eqn:Hex.
  - rewrite filter_cons_False by (rewrite Hex; done).
    simpl. rewrite (excluded_parse_resource _ _ Hex). apply IH.
  - rewrite filter_cons_True by done. simpl. apply IH.
Qed.

Lemma normalize_fold_keys (missing_state : string) (items : list Py.value)
    (acc : gmap string ProxmoxHAResourceData) (k : string) :
  is_Some (fold_left
    (fun result item =>
       match parse_resource missing_state item with
       | Some r => <[sid r := r]> result
       | None => result
       end) items acc !! k) →
  is_Some (acc !! k)
  ∨ ∃ item, In item items ∧ excluded item = false
            ∧ ∃ p, recognized_sid item = Some (k, p).
Proof.
  revert acc. induction items as [|item items IH]; intros acc; simpl; [by left|].
  intros H. apply IH in H as [H|(it & Hin & Hex & Hp)].
  - destruct (parse_resource missing_state item) as [r|] eqn:Hr; [|by left].
    rewrite lookup_insert in H. case_decide as Hk; [|by left].
    right. exists item. split; [by left|].
    unfold parse_resource in Hr. destruct item as [| | | | |kvs]; try done.
    destruct (recognized_sid (Py.VDict kvs)) as [[s p]|] eqn:Hs; [|done].
    destruct (parse_vmid _); [|done]. inversion Hr; subst r.
    cbn [sid] in Hk. subst k. split; [|by exists p].
    unfold excluded. by rewrite Hs.
  - right. exists it. split; [by right|done].
Qed.

Lemma payload_items_shapes (raw : Py.value) (items : list Py.value) :
  raw = Py.VList items
  ∨ (∃ kvs, raw = Py.VDict kvs
            ∧ Py.dict_get "data" kvs = Some (Py.VList items)) →
  payload_items raw = Some items.
Proof.
  intros [-> | (kvs & -> & Hdata)]; [done|].
  unfold payload_items. by rewrite Hdata.
Qed.

(** C8: for every raw payload in one of the two shapes, a bare list or a
    mapping that has a list under ["data"] (whatever else it has), the
    normalizer returns a mapping (it does not raise); the elements that are
    no mapping, or whose [sid] does not begin with a recognized prefix
    followed by a colon, have no part in it: the result is that of the list
    without them, and every key of the result is the [sid] of an element that
    is not excluded; a refresh whose poll returns the payload leaves exactly
    this mapping as the coordinator's data, with a successful update.  For
    the payload of the claim the data of the coordinator after the refresh
    has exactly the keys ["vm:101"] and ["ct:100"], with states ["started"]
    and ["stopped"]. *)
Theorem normalizer_skips_unrecognized (missing_state : string) :
  (∀ (raw : Py.value) (items : list Py.value),
     raw = Py.VList items
     ∨ (∃ kvs, raw = Py.VDict kvs
               ∧ Py.dict_get "data" kvs = Some (Py.VList items)) →
     normalize missing_state raw
       = Some (normalize_items missing_state items)
     ∧ normalize_items missing_state items
       = normalize_items missing_state
           (filter (fun item => excluded item = false) items)
     ∧ (∀ k : string, is_Some (normalize_items missing_state items !! k) →
          ∃ item, In item items ∧ excluded item = false
                  ∧ ∃ p, recognized_sid item = Some (k, p))
     ∧ ∀ (hass : HomeAssistant) (st : RefreshState),
         Coordinator.coordinator
           (async_refresh missing_state hass (Returned raw) st)
         = {| data := Some (normalize_items missing_state
                              (filter (fun item => excluded item = false)
                                      items));
              last_update_success := true |})
  ∧ (∃ snapshot : gmap string ProxmoxHAResourceData,
       normalize missing_state Sample.payload = Some snapshot
       ∧ dom snapshot = {[ "vm:101"; "ct:100" ]}
       ∧ state <$> snapshot !! "vm:101" = Some "started"
       ∧ state <$> snapshot !! "ct:100" = Some "stopped")
  ∧ ∀ (hass : HomeAssistant) (st : RefreshState),
      ∃ snapshot : gmap string ProxmoxHAResourceData,
        data (Coordinator.coordinator
                (async_refresh missing_state hass
                   (Returned Sample.payload) st)) = Some snapshot
        ∧ last_update_success
            (Coordinator.coordinator
               (async_refresh missing_state hass
                  (Returned Sample.payload) st)) = true
        ∧ dom snapshot = {[ "vm:101"; "ct:100" ]}
        ∧ state <$> snapshot !! "vm:101" = Some "started"
        ∧ state <$> snapshot !! "ct:100" = Some "stopped".
Proof.
  split; [|split].
  - intros raw items Hshape. apply payload_items_shapes in Hshape.
    assert (normalize missing_state raw
            = Some (normalize_items missing_state items)) as Hn
      by (unfold normalize; by rewrite Hshape).
    split; [done|]. split; [apply normalize_fold_filter|]. split.
    + intros k Hk. apply normalize_fold_keys in Hk as [Hk|Hk]; [|done].
      rewrite lookup_empty in Hk. by destruct Hk.
    + intros hass st. unfold async_refresh. rewrite Hn.
      unfold successful_update. cbn [Coordinator.coordinator].
      do 2 f_equal. apply normalize_fold_filter.
  - eexists. split; [reflexivity|]. by vm_compute.
  - intros hass st. eexists. split; [reflexivity|]. by vm_compute.
Qed.

Lemma normalizer_skips_unrecognized_at_wrapped_payload :
  normalize ""
    (Py.VDict [("success", Py.VInt 1);
               ("data", Py.VList [Py.VStr "garbage";
                                  Py.VDict [("sid", Py.VStr "node:abc")];
                                  Py.VDict [("sid", Py.VStr "ct:100");
                                            ("state", Py.VStr "stopped")];
                                  Py.VDict [("state", Py.VStr "started")]])])
  = Some (normalize_items ""
            [Py.VStr "garbage";
             Py.VDict [("sid", Py.VStr "node:abc")];
             Py.VDict [("sid", Py.VStr "ct:100"); ("state", Py.VStr "stopped")];
             Py.VDict [("state", Py.VStr "started")]])
  ∧ normalize_items ""
      [Py.VStr "garbage";
       Py.VDict [("sid", Py.VStr "node:abc")];
       Py.VDict [("sid", Py.VStr "ct:100"); ("state", Py.VStr "stopped")];
       Py.VDict [("state", Py.VStr "started")]]
    = normalize_items ""
        [Py.VDict [("sid", Py.VStr "ct:100"); ("state", Py.VStr "stopped")]].
Proof.
  destruct (proj1 (normalizer_skips_unrecognized "")
              (Py.VDict [("success", Py.VInt 1);
                         ("data", Py.VList
                            [Py.VStr "garbage";
                             Py.VDict [("sid", Py.VStr "node:abc")];
                             Py.VDict [("sid", Py.VStr "ct:100");
                                       ("state", Py.VStr "stopped")];
                             Py.VDict [("state", Py.VStr "started")]])])
              [Py.VStr "garbage";
               Py.VDict [("sid", Py.VStr "node:abc")];
               Py.VDict [("sid", Py.VStr "ct:100");
                         ("state", Py.VStr "stopped")];
               Py.VDict [("state", Py.VStr "started")]])
    as (Hn & Hf & _).
  - right. eexists. split; reflexivity.
  - split; [exact Hn|exact Hf].
Defined.

(** ** The entity's properties *)

Lemma dict_in_true {V} (k : string) (d : gmap string V) :
  dict_in k d = true ↔ is_Some (d !! k).
Proof. unfold dict_in. by rewrite bool_decide_eq_true. Qed.

Lemma dict_in_false {V} (k : string) (d : gmap string V) :
  dict_in k d = false ↔ d !! k = None.
Proof.
  unfold dict_in. rewrite bool_decide_eq_false.
  by rewrite eq_None_not_Some.
Qed.

(** C2: [available] is true exactly when the base entity's availability
    holds, the coordinator's snapshot is not [None] and the snapshot contains
    the entity's [sid]; an entity whose [sid] is absent from the coordinator's
    data is unavailable even when the base entity is available. *)
Theorem available_iff (super_available : bool)
    (co : ProxmoxHACoordinator) (self : ProxmoxHASelectEntity) :
  (available super_available co self = true
   ↔ super_available = true
     ∧ data co ≠ None
     ∧ ∃ d, data co = Some d ∧ is_Some (d !! _sid self))
  ∧ ((∀ d, data co = Some d → d !! _sid self = None)
     → available true co self = false).
Proof.
  unfold available. split.
  - rewrite andb_true_iff. split.
    + intros [Hs Hd]. split; [done|].
      destruct (data co) as [d|]; [|done].
      split; [done|]. exists d. split; [done|]. by apply dict_in_true.
    + intros (Hs & _ & d & Hd & Hin). split; [done|].
      rewrite Hd. by apply dict_in_true.
  - intros Habs. simpl. destruct (data co) as [d|]; [|done].
    apply dict_in_false. by apply Habs.
Qed.

Lemma available_sid_absent :
  available true Sample.other_coordinator Sample.entity = false.
Proof.
  apply (proj2 (available_iff true Sample.other_coordinator Sample.entity)).
  intros d Hd. injection Hd as <-. reflexivity.
Defined.

Example available_sid_present :
  available true Sample.ha_coordinator Sample.entity = true.
Proof. by vm_compute. Qed.

(** C6: [current_option] is [None] exactly when the coordinator's snapshot
    is [None] or lacks the entity's [sid]; otherwise it is the [state] of the
    record under that [sid], as it is.  It is a function of the coordinator's
    state at the time of the access: nothing is kept in the entity. *)
Theorem current_option_spec
    (co : ProxmoxHACoordinator) (self : ProxmoxHASelectEntity) :
  (current_option co self = None
   ↔ data co = None ∨ ∃ d, data co = Some d ∧ d !! _sid self = None)
  ∧ (∀ d resource, data co = Some d → d !! _sid self = Some resource →
       current_option co self = Some (state resource)).
Proof.
  unfold current_option. split.
  - destruct (data co) as [d|]; [|by split; [left|]].
    destruct (d !! _sid self) as [resource|] eqn:Hr.
    + split; [done|]. intros [?|(d' & Hd' & Hn)]; [done|].
      injection Hd' as <-. congruence.
    + split; [|done]. intros _. right. by exists d.
  - intros d resource -> ->. done.
Qed.

Example current_option_follows_coordinator :
  current_option Sample.ha_coordinator Sample.entity = Some "started"
  ∧ current_option Sample.other_coordinator Sample.entity = None
  ∧ current_option {| data := None; last_update_success := true |}
      Sample.entity = None.
Proof. by vm_compute. Qed.

(** ** Setup *)

Lemma qemu_loop (c : Const) (config_entry : ConfigEntry)
    (ha_resources : gmap string ProxmoxHAResourceData)
    (ids : list string) (selects : list ProxmoxHASelectEntity) :
  fold_left (qemu_step c config_entry ha_resources) ids selects
  = (selects ++
     map (entity_for c config_entry "vm:" (ProxmoxType_QEMU c))
       (filter (fun id => qualifies "vm:" (ProxmoxType_QEMU c) ha_resources
                            (runtime_data_COORDINATORS config_entry) id = true)
               ids))%list.
Proof.
  revert selects. induction ids as [|id ids IH]; intros selects.
  - simpl. by rewrite app_nil_r.
  - cbn [fold_left]. rewrite IH. unfold qemu_step at 1, qualifies at 2.
    destruct (dict_in ("vm:" +:+ id) ha_resources) eqn:H1;
      cbn [negb andb].
    + destruct (dict_in (ProxmoxType_QEMU c +:+ "_" +:+ id)
                  (runtime_data_COORDINATORS config_entry)) eqn:H2;
        cbn [negb].
      * rewrite filter_cons_True by (unfold qualifies; rewrite H1, H2; done).
        cbn [map]. by rewrite <- app_assoc.
      * rewrite filter_cons_False
          by (unfold qualifies; rewrite H1, H2; done). done.
    + rewrite filter_cons_False by (unfold qualifies; rewrite H1; done). done.
Qed.

Lemma lxc_loop (c : Const) (config_entry : ConfigEntry)
    (ha_resources : gmap string ProxmoxHAResourceData)
    (ids : list string) (selects : list ProxmoxHASelectEntity) :
  fold_left (lxc_step c config_entry ha_resources) ids selects
  = (selects ++
     map (entity_for c config_entry "ct:" (ProxmoxType_LXC c))
       (filter (fun id => qualifies "ct:" (ProxmoxType_LXC c) ha_resources
                            (runtime_data_COORDINATORS config_entry) id = true)
               ids))%list.
Proof.
  revert selects. induction ids as [|id ids IH]; intros selects.
  - simpl. by rewrite app_nil_r.
  - cbn [fold_left]. rewrite IH. unfold lxc_step at 1, qualifies at 2.
    destruct (dict_in ("ct:" +:+ id) ha_resources) eqn:H1;
      cbn [negb andb].
    + destruct (dict_in (ProxmoxType_LXC c +:+ "_" +:+ id)
                  (runtime_data_COORDINATORS config_entry)) eqn:H2;
        cbn [negb].
      * rewrite filter_cons_True by (unfold qualifies; rewrite H1, H2; done).
        cbn [map]. by rewrite <- app_assoc.
      * rewrite filter_cons_False
          by (unfold qualifies; rewrite H1, H2; done). done.
    + rewrite filter_cons_False by (unfold qualifies; rewrite H1; done). done.
Qed.

Lemma async_setup_entry_expected (c : Const) (config_entry : ConfigEntry) :
  async_setup_entry c config_entry
  = (ha_coordinator ←
       runtime_data_COORDINATORS config_entry
         !! (ProxmoxType_Resources c +:+ "_ha");
     ha_resources ← data ha_coordinator;
     Some (expected_selects c config_entry ha_resources)).
Proof.
  unfold async_setup_entry, expected_selects.
  destruct (runtime_data_COORDINATORS config_entry !! _) as [hac|]; [|done].
  simpl. destruct (data hac) as [d|]; [|done]. simpl.
  by rewrite qemu_loop, lxc_loop.
Qed.

Lemma setup_coordinators_ha (c : Const) (ha q l : ProxmoxHACoordinator) :
  Sample.setup_coordinators c ha q l !! (ProxmoxType_Resources c +:+ "_ha")
  = Some ha.
Proof. unfold Sample.setup_coordinators. apply lookup_insert_eq. Qed.

Lemma setup_coordinators_qemu (c : Const) (ha q l : ProxmoxHACoordinator) :
  dict_in (ProxmoxType_QEMU c +:+ "_" +:+ "101")
          (Sample.setup_coordinators c ha q l) = true.
Proof.
  apply dict_in_true. unfold Sample.setup_coordinators.
  rewrite lookup_insert. case_decide; [done|].
  change ("_" +:+ "101") with "_101". by rewrite lookup_insert_eq.
Qed.

Lemma setup_coordinators_lxc (c : Const) (ha q l : ProxmoxHACoordinator) :
  dict_in (ProxmoxType_LXC c +:+ "_" +:+ "100")
          (Sample.setup_coordinators c ha q l) = true.
Proof.
  apply dict_in_true. unfold Sample.setup_coordinators.
  rewrite lookup_insert. case_decide; [done|].
  rewrite lookup_insert. case_decide; [done|].
  change ("_" +:+ "100") with "_100". by rewrite lookup_insert_eq.
Qed.

(** C9: a setup adds one entity per configured VM or container identifier
    whose [sid] is in the HA snapshot and whose per-type coordinator is in
    the coordinator mapping, VMs first, and no other (none at all, and no
    call of [async_add_entities], without an HA coordinator or without its
    snapshot).  With VM 101 and container 100 configured, both in the HA
    snapshot as started, and a coordinator for each, exactly two entities are
    created, with unique ids [{entry_id}_101_ha_state] and
    [{entry_id}_100_ha_state], and both report ["started"]. *)
Theorem setup_creates_entities_for_ha_resources (c : Const) :
  (∀ config_entry : ConfigEntry,
     async_setup_entry c config_entry
     = (ha_coordinator ←
          runtime_data_COORDINATORS config_entry
            !! (ProxmoxType_Resources c +:+ "_ha");
        ha_resources ← data ha_coordinator;
        Some (expected_selects c config_entry ha_resources)))
  ∧ (∀ (entry_id : string) (qemu_101 lxc_100 : ProxmoxHACoordinator),
       ∃ e1 e2 : ProxmoxHASelectEntity,
         async_setup_entry c
           (Sample.setup_config_entry c entry_id qemu_101 lxc_100)
         = Some [e1; e2]
         ∧ unique_id e1 = entry_id +:+ "_101_ha_state"
         ∧ unique_id e2 = entry_id +:+ "_100_ha_state"
         ∧ _sid e1 = "vm:101" ∧ _sid e2 = "ct:100"
         ∧ current_option Sample.setup_ha_coordinator e1 = Some "started"
         ∧ current_option Sample.setup_ha_coordinator e2 = Some "started").
Proof.
  split; [apply async_setup_entry_expected|].
  intros entry_id q l.
  exists (entity_for c (Sample.setup_config_entry c entry_id q l)
            "vm:" (ProxmoxType_QEMU c) "101"),
         (entity_for c (Sample.setup_config_entry c entry_id q l)
            "ct:" (ProxmoxType_LXC c) "100").
  split; [|by vm_compute].
  rewrite async_setup_entry_expected.
  cbn [Sample.setup_config_entry runtime_data_COORDINATORS].
  rewrite setup_coordinators_ha.
  cbn [mbind option_bind Sample.setup_ha_coordinator data].
  unfold expected_selects.
  cbn [Sample.setup_config_entry runtime_data_COORDINATORS
       data_CONF_QEMU data_CONF_LXC].
  rewrite !filter_cons_True, !filter_nil; [done| |].
  - unfold qualifies. rewrite setup_coordinators_lxc. by vm_compute.
  - unfold qualifies. rewrite setup_coordinators_qemu. by vm_compute.
Qed.

(** ** Selecting an option *)

Section SelectOption.

Variable c : Const.
Variable put_api : ProxmoxAPI -> string -> string -> option exn.
Variable async_request_refresh : ProxmoxHACoordinator -> ProxmoxHACoordinator.

(** An option outside the enumeration: the error, and an untouched world. *)
Lemma select_option_invalid (self : ProxmoxHASelectEntity) (option : string)
    (w : World) :
  Py.str_in option (ha_state_values c) = false →
  async_select_option c put_api async_request_refresh self option w
  = (inl (HomeAssistantError ("Invalid HA state: " +:+ option) None), w).
Proof. intros H. unfold async_select_option. by rewrite H. Qed.

(** A valid option whose write call returns. *)
Lemma select_option_written (self : ProxmoxHASelectEntity) (option : string)
    (w : World) :
  Py.str_in option (ha_state_values c) = true →
  put_api (get_api_client (_proxmox_client self)) (path_of self) option = None →
  async_select_option c put_api async_request_refresh self option w
  = (inr tt,
     {| trace := trace w ++
                 [put_of self option;
                  LoggerDebug ("Set HA state for " +:+ _sid self +:+ " to "
                               +:+ option);
                  RequestRefresh];
        coordinator := async_request_refresh (coordinator w) |}).
Proof.
  intros Hv Hp. unfold async_select_option. rewrite Hv. cbn [negb].
  unfold mbind, M_bind, try_except, call_put_api, mbind, M_bind, emit,
    call_request_refresh.
  unfold path_of in Hp. rewrite Hp. cbn.
  by rewrite <- !app_assoc.
Qed.

(** A valid option whose write call raises: what is raised, after the one
    write call and nothing else. *)
Lemma select_option_write_raises (self : ProxmoxHASelectEntity)
    (option : string) (w : World) (error : exn) :
  Py.str_in option (ha_state_values c) = true →
  put_api (get_api_client (_proxmox_client self)) (path_of self) option
    = Some error →
  async_select_option c put_api async_request_refresh self option w
  = (inl match error with
         | ResourceException _ =>
             HomeAssistantError
               ("Failed to set HA state for " +:+ _sid self +:+ " to "
                +:+ option +:+ ": " +:+ exn_str error) (Some error)
         | ConnectTimeout _ =>
             HomeAssistantError
               ("Timeout setting HA state for " +:+ _sid self +:+ ": "
                +:+ exn_str error) (Some error)
         | _ => error
         end,
     {| trace := trace w ++ [put_of self option];
        coordinator := coordinator w |}).
Proof.
  intros Hv Hp. unfold async_select_option. rewrite Hv. cbn [negb].
  unfold mbind, M_bind, try_except, call_put_api, mbind, M_bind, emit.
  unfold path_of in Hp. rewrite Hp. cbn.
  by destruct error.
Qed.

Lemma write_calls_app (t1 t2 : list event) :
  write_calls (t1 ++ t2) = (write_calls t1 ++ write_calls t2)%list.
Proof. unfold write_calls. apply flat_map_app. Qed.

Lemma refresh_requests_app (t1 t2 : list event) :
  refresh_requests (t1 ++ t2) = refresh_requests t1 + refresh_requests t2.
Proof. unfold refresh_requests. by rewrite List.filter_app, length_app. Qed.

(** C3: an invocation that succeeds was given a member of the enumeration;
    it issued exactly one write call, to [cluster/ha/resources/<sid>] with
    [state] the chosen option, and after it exactly one refresh request;
    what the coordinator holds afterwards is what that refresh request made
    of the coordinator as it was: [select_option] itself changed nothing of
    it. *)
Theorem select_option_success (self : ProxmoxHASelectEntity)
    (option : string) (w : World) :
  (async_select_option c put_api async_request_refresh self option w).1 = inr tt →
  let w' := (async_select_option c put_api async_request_refresh self option w).2 in
  Py.str_in option (ha_state_values c) = true
  ∧ trace w' = (trace w ++
                [PutApi (get_api_client (_proxmox_client self))
                        ("cluster/ha/resources/" +:+ _sid self) option;
                 LoggerDebug ("Set HA state for " +:+ _sid self +:+ " to "
                              +:+ option);
                 RequestRefresh])%list
  ∧ write_calls (trace w')
    = (write_calls (trace w) ++
       [(get_api_client (_proxmox_client self),
         "cluster/ha/resources/" +:+ _sid self, option)])%list
  ∧ refresh_requests (trace w') = S (refresh_requests (trace w))
  ∧ coordinator w' = async_request_refresh (coordinator w).
Proof.
  intros Hok w'. subst w'.
  destruct (Py.str_in option (ha_state_values c)) eqn:Hv;
    [|by rewrite select_option_invalid in Hok].
  destruct (put_api (get_api_client (_proxmox_client self)) (path_of self)
              option) as [error|] eqn:Hp.
  - rewrite (select_option_write_raises _ _ _ _ Hv Hp) in Hok.
    by destruct error.
  - rewrite (select_option_written _ _ _ Hv Hp). cbn [snd trace coordinator].
    split; [done|]. split; [done|].
    rewrite write_calls_app, refresh_requests_app. cbn. split; [done|].
    split; [lia|done].
Qed.

(** C5: for an option that is no member of the enumeration the invocation
    raises the user-facing error, whose message has the value in it, and
    makes no call: the world is as it was. *)
Theorem select_option_rejects_invalid (self : ProxmoxHASelectEntity)
    (option : string) (w : World) :
  ¬ In option (ha_state_values c) →
  ∃ msg,
    async_select_option c put_api async_request_refresh self option w = (inl (HomeAssistantError msg None), w)
    ∧ msg = "Invalid HA state: " +:+ option
    ∧ Py.contains option msg = true
    ∧ write_calls (trace (async_select_option c put_api async_request_refresh self option w).2)
      = write_calls (trace w).
Proof.
  intros Hn. exists ("Invalid HA state: " +:+ option).
  assert (Py.str_in option (ha_state_values c) = false) as Hv.
  { apply not_true_is_false. by rewrite str_in_In. }
  rewrite (select_option_invalid _ _ _ Hv). repeat split.
  apply contains_skip, contains_refl.
Qed.

(** C4 (amended): when the write call raises a resource-specific API error
    or a connection timeout, the invocation raises the one user-facing error
    with the original failure as its cause; the message has the resource
    identifier in it and, for the API error, the attempted state as well;
    the write call is the only call made: no refresh is requested and the
    coordinator is as it was. *)
Theorem select_option_write_failure (self : ProxmoxHASelectEntity)
    (option : string) (w : World) (error : exn) :
  Py.str_in option (ha_state_values c) = true →
  put_api (get_api_client (_proxmox_client self))
          ("cluster/ha/resources/" +:+ _sid self) option = Some error →
  (∃ m, error = ResourceException m ∨ error = ConnectTimeout m) →
  let r := async_select_option c put_api async_request_refresh self option w in
  ∃ msg,
    r.1 = inl (HomeAssistantError msg (Some error))
    ∧ Py.contains (_sid self) msg = true
    ∧ (∀ m, error = ResourceException m → Py.contains option msg = true)
    ∧ trace r.2
      = (trace w ++
         [PutApi (get_api_client (_proxmox_client self))
                 ("cluster/ha/resources/" +:+ _sid self) option])%list
    ∧ refresh_requests (trace r.2) = refresh_requests (trace w)
    ∧ coordinator r.2 = coordinator w.
Proof.
  intros Hv Hp (m & Hkind) r. subst r.
  rewrite (select_option_write_raises _ _ _ _ Hv Hp).
  cbn [fst snd trace coordinator].
  rewrite refresh_requests_app. cbn [refresh_requests List.filter put_of length].
  destruct Hkind as [-> | ->]; eexists; (split; [reflexivity|]).
  - split; [apply (contains_skip _ "Failed to set HA state for "),
              contains_here|].
    split; [|split; [done|split; [lia|done]]].
    intros _ _.
    apply (contains_skip _ "Failed to set HA state for ").
    apply contains_skip. apply (contains_skip _ " to "). apply contains_here.
  - split; [apply (contains_skip _ "Timeout setting HA state for "),
              contains_here|].
    split; [done|]. split; [done|split; [lia|done]].
Qed.

(** C10: an option of the published options list passes the validation of
    [async_select_option]: the check is over the same values, and the
    invocation goes on to the write call, which the invalid-value branch
    never makes. *)
Theorem published_option_passes_validation (self : ProxmoxHASelectEntity)
    (option : string) (w : World) :
  In option (options (PROXMOX_SELECT_HA_STATE c)) →
  Py.str_in option (ha_state_values c) = true
  ∧ (∃ rest,
       trace (async_select_option c put_api async_request_refresh
                self option w).2
       = (trace w ++
          PutApi (get_api_client (_proxmox_client self))
                 ("cluster/ha/resources/" +:+ _sid self) option :: rest)%list)
  ∧ async_select_option c put_api async_request_refresh self option w
    ≠ (inl (HomeAssistantError ("Invalid HA state: " +:+ option) None), w).
Proof.
  intros Hin. cbn [PROXMOX_SELECT_HA_STATE options] in Hin.
  apply str_in_In in Hin. split; [done|].
  assert (∃ rest,
       trace (async_select_option c put_api async_request_refresh
                self option w).2
       = (trace w ++ put_of self option :: rest)%list) as [rest Hrest].
  { destruct (put_api (get_api_client (_proxmox_client self)) (path_of self)
                option) as [error|] eqn:Hp.
    - rewrite (select_option_write_raises _ _ _ _ Hin Hp). by exists [].
    - rewrite (select_option_written _ _ _ Hin Hp). by eexists. }
  split; [by exists rest|].
  intros Heq. rewrite Heq in Hrest. cbn [snd] in Hrest.
  apply (f_equal length) in Hrest. rewrite length_app in Hrest.
  cbn [length] in Hrest. lia.
Qed.

End SelectOption.

(** C4, as stated, fails for a timeout: the message of the error raised for
    a [ConnectTimeout] names the resource and not the attempted state. *)
Lemma select_option_timeout_message_lacks_state :
  (async_select_option Sample.const Sample.put_api_times_out
     Sample.refresh_with_payload Sample.entity "stopped" Sample.world).1
  = inl (HomeAssistantError "Timeout setting HA state for vm:101: timed out"
           (Some (ConnectTimeout "timed out")))
  ∧ Py.contains "vm:101" "Timeout setting HA state for vm:101: timed out" = true
  ∧ Py.contains "stopped" "Timeout setting HA state for vm:101: timed out"
    = false.
Proof. by vm_compute. Qed.

(** The theorems on [async_select_option] at the entity of the tests. *)

Lemma select_option_success_witness :
  let r := async_select_option Sample.const Sample.put_api_ok
             Sample.refresh_with_payload Sample.entity "stopped"
             Sample.world in
  r.1 = inr tt
  ∧ write_calls (trace r.2)
    = [({| api_id := 0 |}, "cluster/ha/resources/vm:101", "stopped")]
  ∧ refresh_requests (trace r.2) = 1
  ∧ coordinator r.2 = Sample.refresh_with_payload Sample.ha_coordinator.
Proof.
  intros r. split; [reflexivity|].
  destruct (select_option_success Sample.const Sample.put_api_ok
              Sample.refresh_with_payload Sample.entity "stopped"
              Sample.world eq_refl) as (_ & _ & Hw & Hr & Hc).
  split; [exact Hw|]. split; [exact Hr|exact Hc].
Defined.

Lemma select_option_write_failure_witness :
  let r := async_select_option Sample.const Sample.put_api_refused
             Sample.refresh_with_payload Sample.entity "stopped"
             Sample.world in
  ∃ msg,
    r.1 = inl (HomeAssistantError msg
                 (Some (ResourceException "500 Internal Server Error")))
    ∧ Py.contains "vm:101" msg = true
    ∧ Py.contains "stopped" msg = true
    ∧ refresh_requests (trace r.2) = 0.
Proof.
  intros r.
  destruct (select_option_write_failure Sample.const Sample.put_api_refused
              Sample.refresh_with_payload Sample.entity "stopped"
              Sample.world (ResourceException "500 Internal Server Error")
              eq_refl eq_refl
              (ex_intro _ "500 Internal Server Error" (or_introl eq_refl)))
    as (msg & Hm & Hsid & Hopt & _ & Hr & _).
  exists msg. split; [exact Hm|]. split; [exact Hsid|].
  split; [exact (Hopt _ eq_refl)|exact Hr].
Defined.

Lemma select_option_rejects_invalid_witness :
  ∃ msg,
    async_select_option Sample.const Sample.put_api_ok
      Sample.refresh_with_payload Sample.entity "invalid_state" Sample.world
    = (inl (HomeAssistantError msg None), Sample.world)
    ∧ msg = "Invalid HA state: invalid_state".
Proof.
  destruct (select_option_rejects_invalid Sample.const Sample.put_api_ok
              Sample.refresh_with_payload Sample.entity "invalid_state"
              Sample.world) as (msg & Hr & Hm & _).
  - intros H. apply str_in_In in H. discriminate H.
  - exists msg. split; [exact Hr|exact Hm].
Defined.

Lemma published_option_passes_validation_witness :
  Py.str_in "stopped" (ha_state_values Sample.const) = true.
Proof.
  apply (published_option_passes_validation Sample.const Sample.put_api_ok
           Sample.refresh_with_payload Sample.entity "stopped" Sample.world).
  cbn. right. left. reflexivity.
Defined.

(** * Further properties of [select.py] *)

(** ** Strings, again *)

Lemma append_length (s t : string) :
  String.length (s +:+ t) = String.length s + String.length t.
Proof. induction s as [|a s IH]; simpl; [done|]. by rewrite IH. Qed.

Lemma append_inv_r (s s' t : string) : s +:+ t = s' +:+ t → s = s'.
Proof.
  revert s'. induction s as [|a s IH]; intros [|b s'] H.
  - done.
  - apply (f_equal String.length) in H.
    rewrite !append_length in H. cbn [String.length] in H. lia.
  - apply (f_equal String.length) in H.
    rewrite !append_length in H. cbn [String.length] in H. lia.
  - change (String a (s +:+ t) = String b (s' +:+ t)) in H.
    injection H as -> H. f_equal. by apply IH.
Qed.

Lemma append_inv_l (p s s' : string) : p +:+ s = p +:+ s' → s = s'.
Proof.
  induction p as [|a p IH]; simpl; [done|]. intros H. injection H as H. auto.
Qed.

(** ** The entities of a setup *)

Lemma unique_id_inj (entry id id' : string) :
  entry +:+ "_" +:+ id +:+ "_ha_state" = entry +:+ "_" +:+ id' +:+ "_ha_state" →
  id = id'.
Proof.
  intros H. apply append_inv_l in H. apply (append_inv_l "_") in H.
  by apply append_inv_r in H.
Qed.

Lemma elem_of_expected_selects (c : Const) (config_entry : ConfigEntry)
    (ha_resources : gmap string ProxmoxHAResourceData)
    (e : ProxmoxHASelectEntity) :
  e ∈ expected_selects c config_entry ha_resources
  ↔ (∃ id, id ∈ data_CONF_QEMU config_entry
           ∧ qualifies "vm:" (ProxmoxType_QEMU c) ha_resources
               (runtime_data_COORDINATORS config_entry) id = true
           ∧ e = entity_for c config_entry "vm:" (ProxmoxType_QEMU c) id)
    ∨ (∃ id, id ∈ data_CONF_LXC config_entry
             ∧ qualifies "ct:" (ProxmoxType_LXC c) ha_resources
                 (runtime_data_COORDINATORS config_entry) id = true
             ∧ e = entity_for c config_entry "ct:" (ProxmoxType_LXC c) id).
Proof.
  unfold expected_selects. rewrite elem_of_app.
  change (@map) with (@fmap list _).
  rewrite !list_elem_of_fmap.
  setoid_rewrite list_elem_of_filter.
  split; (intros [(id & ? & ? & ?)|(id & ? & ? & ?)];
          [left|right]; exists id; done).
Qed.

Lemma setup_some (c : Const) (config_entry : ConfigEntry)
    (selects : list ProxmoxHASelectEntity) :
  async_setup_entry c config_entry = Some selects →
  ∃ ha_coordinator ha_resources,
    runtime_data_COORDINATORS config_entry
      !! (ProxmoxType_Resources c +:+ "_ha") = Some ha_coordinator
    ∧ data ha_coordinator = Some ha_resources
    ∧ selects = expected_selects c config_entry ha_resources.
Proof.
  rewrite async_setup_entry_expected.
  destruct (runtime_data_COORDINATORS config_entry !! _) as [hac|]; [|done].
  simpl. destruct (data hac) as [d|] eqn:Hd; [|done]. simpl.
  intros [= <-]. by exists hac, d.
Qed.

(** X1: when no identifier is configured twice, as a VM, as a container or
    as both, the entities that a setup creates have pairwise different
    unique ids. *)
Theorem setup_unique_ids_distinct (c : Const) (config_entry : ConfigEntry)
    (selects : list ProxmoxHASelectEntity) :
  NoDup (data_CONF_QEMU config_entry ++ data_CONF_LXC config_entry) →
  async_setup_entry c config_entry = Some selects →
  NoDup (unique_id <$> selects).
Proof.
  intros Hnd (hac & d & _ & _ & ->)%setup_some.
  unfold expected_selects. change (@map) with (@fmap list _).
  rewrite fmap_app, <- !list_fmap_compose.
  rewrite <- (fmap_app
    (fun id => entry_id config_entry +:+ "_" +:+ id +:+ "_ha_state")).
  apply NoDup_fmap_2.
  { intros id id' H. by apply unique_id_inj in H. }
  apply NoDup_app in Hnd as (Hq & Hdisj & Hl).
  apply NoDup_app. split; [by apply NoDup_filter|].
  split; [|by apply NoDup_filter].
  intros id [_ Hin]%list_elem_of_filter [_ Hin']%list_elem_of_filter.
  by apply (Hdisj id).
Qed.

Lemma setup_unique_ids_distinct_at_sample :
  NoDup (unique_id <$>
           [entity_for Sample.const
              (Sample.setup_config_entry Sample.const "entry"
                 Sample.other_coordinator Sample.other_coordinator)
              "vm:" "qemu" "101";
            entity_for Sample.const
              (Sample.setup_config_entry Sample.const "entry"
                 Sample.other_coordinator Sample.other_coordinator)
              "ct:" "lxc" "100"]).
Proof.
  apply (setup_unique_ids_distinct Sample.const
           (Sample.setup_config_entry Sample.const "entry"
              Sample.other_coordinator Sample.other_coordinator)).
  - apply NoDup_ListNoDup. repeat constructor; simpl; intuition discriminate.
  - reflexivity.
Defined.

(** X2: every entity that a setup creates reads a definite state from the
    HA coordinator the setup found, and is available when its base entity
    is: its [sid] is in the snapshot the setup looked at. *)
Theorem setup_entities_have_state (c : Const) (config_entry : ConfigEntry)
    (ha_coordinator : ProxmoxHACoordinator)
    (selects : list ProxmoxHASelectEntity) (e : ProxmoxHASelectEntity) :
  runtime_data_COORDINATORS config_entry
    !! (ProxmoxType_Resources c +:+ "_ha") = Some ha_coordinator →
  async_setup_entry c config_entry = Some selects →
  e ∈ selects →
  is_Some (current_option ha_coordinator e)
  ∧ available true ha_coordinator e = true.
Proof.
  intros Hha (hac & d & Hha' & Hd & ->)%setup_some Hin.
  rewrite Hha in Hha'. injection Hha' as <-.
  assert (is_Some (d !! _sid e)) as [resource Hr].
  { apply elem_of_expected_selects in Hin
      as [(id & _ & Hq & ->)|(id & _ & Hq & ->)];
      unfold qualifies in Hq; apply andb_true_iff in Hq as [Hq _];
      by apply dict_in_true in Hq. }
  unfold current_option, available. rewrite Hd, Hr. split; [by eexists|].
  apply dict_in_true. by rewrite Hr.
Qed.

Lemma setup_entities_have_state_at_sample :
  is_Some (current_option Sample.setup_ha_coordinator
             (entity_for Sample.const
                (Sample.setup_config_entry Sample.const "entry"
                   Sample.other_coordinator Sample.other_coordinator)
                "ct:" "lxc" "100"))
  ∧ available true Sample.setup_ha_coordinator
      (entity_for Sample.const
         (Sample.setup_config_entry Sample.const "entry"
            Sample.other_coordinator Sample.other_coordinator)
         "ct:" "lxc" "100") = true.
Proof.
  apply (setup_entities_have_state Sample.const
           (Sample.setup_config_entry Sample.const "entry"
              Sample.other_coordinator Sample.other_coordinator)
           Sample.setup_ha_coordinator
           [entity_for Sample.const
              (Sample.setup_config_entry Sample.const "entry"
                 Sample.other_coordinator Sample.other_coordinator)
              "vm:" "qemu" "101";
            entity_for Sample.const
              (Sample.setup_config_entry Sample.const "entry"
                 Sample.other_coordinator Sample.other_coordinator)
              "ct:" "lxc" "100"]).
  - reflexivity.
  - reflexivity.
  - apply list_elem_of_In. right. left. reflexivity.
Defined.

(** X3: when the HA coordinator has a snapshot and none of the configured
    identifiers is in it (an empty snapshot, say), the setup still calls
    [async_add_entities], with the empty list. *)
Theorem setup_without_ha_resources (c : Const) (config_entry : ConfigEntry)
    (ha_coordinator : ProxmoxHACoordinator)
    (ha_resources : gmap string ProxmoxHAResourceData) :
  runtime_data_COORDINATORS config_entry
    !! (ProxmoxType_Resources c +:+ "_ha") = Some ha_coordinator →
  data ha_coordinator = Some ha_resources →
  (∀ id, id ∈ data_CONF_QEMU config_entry →
         ha_resources !! ("vm:" +:+ id) = None) →
  (∀ id, id ∈ data_CONF_LXC config_entry →
         ha_resources !! ("ct:" +:+ id) = None) →
  async_setup_entry c config_entry = Some [].
Proof.
  intros Hha Hd Hq Hl. rewrite async_setup_entry_expected, Hha. simpl.
  rewrite Hd. simpl. f_equal.
  destruct (expected_selects c config_entry ha_resources) as [|e rest] eqn:He;
    [done|exfalso].
  assert (e ∈ expected_selects c config_entry ha_resources) as Hin
    by (rewrite He; left).
  apply elem_of_expected_selects in Hin
    as [(id & Hid & Hqual & _)|(id & Hid & Hqual & _)];
    unfold qualifies in Hqual; apply andb_true_iff in Hqual as [Hqual _];
    apply dict_in_true in Hqual as [r Hr].
  - by rewrite (Hq id Hid) in Hr.
  - by rewrite (Hl id Hid) in Hr.
Qed.

Lemma setup_without_ha_resources_at_empty_snapshot :
  async_setup_entry Sample.const
    {| entry_id := "entry";
       data_CONF_QEMU := ["101"; "102"];
       data_CONF_LXC := ["100"];
       runtime_data_COORDINATORS :=
         Sample.setup_coordinators Sample.const
           {| data := Some ∅; last_update_success := true |}
           Sample.other_coordinator Sample.other_coordinator;
       runtime_data_PROXMOX_CLIENT := Sample.client |}
  = Some [].
Proof.
  apply (setup_without_ha_resources Sample.const _
           {| data := Some ∅; last_update_success := true |} ∅).
  - reflexivity.
  - reflexivity.
  - intros id _. apply lookup_empty.
  - intros id _. apply lookup_empty.
Defined.

(** X4: which resources get an entity, and under which unique id, depends
    on the coordinator mapping only through the snapshot of the HA
    coordinator and through which names are registered: two config entries
    that agree on these, on the entry id and on the configured identifiers
    get entities with the same unique ids and the same [sid]s, in the same
    order. *)
Theorem setup_sids_depend_on_names_and_ha_data (c : Const)
    (config_entry config_entry' : ConfigEntry) :
  entry_id config_entry = entry_id config_entry' →
  data_CONF_QEMU config_entry = data_CONF_QEMU config_entry' →
  data_CONF_LXC config_entry = data_CONF_LXC config_entry' →
  data <$> runtime_data_COORDINATORS config_entry
             !! (ProxmoxType_Resources c +:+ "_ha")
    = data <$> runtime_data_COORDINATORS config_entry'
                 !! (ProxmoxType_Resources c +:+ "_ha") →
  (∀ name, is_Some (runtime_data_COORDINATORS config_entry !! name)
           ↔ is_Some (runtime_data_COORDINATORS config_entry' !! name)) →
  option_map (map (fun e => (unique_id e, _sid e)))
    (async_setup_entry c config_entry)
  = option_map (map (fun e => (unique_id e, _sid e)))
      (async_setup_entry c config_entry').
Proof.
  intros Hid Hq Hl Hha Hnames. rewrite !async_setup_entry_expected.
  assert (∀ d, map (fun e => (unique_id e, _sid e))
                 (expected_selects c config_entry d)
               = map (fun e => (unique_id e, _sid e))
                   (expected_selects c config_entry' d)) as Hexp.
  { intros d. unfold expected_selects. rewrite <- Hq, <- Hl.
    change (@map) with (@fmap list _).
    rewrite !fmap_app, <- !list_fmap_compose.
    f_equal.
    - transitivity
        ((fun id => (entry_id config_entry +:+ "_" +:+ id +:+ "_ha_state",
                     "vm:" +:+ id))
           <$> filter (fun id => qualifies "vm:" (ProxmoxType_QEMU c) d
                         (runtime_data_COORDINATORS config_entry') id = true)
                 (data_CONF_QEMU config_entry)).
      + f_equal. apply list_filter_iff. intros id. unfold qualifies.
        rewrite !andb_true_iff, !dict_in_true. by rewrite Hnames.
      + apply list_fmap_ext. intros _ id _. cbn. by rewrite Hid.
    - transitivity
        ((fun id => (entry_id config_entry +:+ "_" +:+ id +:+ "_ha_state",
                     "ct:" +:+ id))
           <$> filter (fun id => qualifies "ct:" (ProxmoxType_LXC c) d
                         (runtime_data_COORDINATORS config_entry') id = true)
                 (data_CONF_LXC config_entry)).
      + f_equal. apply list_filter_iff. intros id. unfold qualifies.
        rewrite !andb_true_iff, !dict_in_true. by rewrite Hnames.
      + apply list_fmap_ext. intros _ id _. cbn. by rewrite Hid. }
  destruct (runtime_data_COORDINATORS config_entry !! _) as [hac|],
    (runtime_data_COORDINATORS config_entry' !! _) as [hac'|];
    simpl in *; try done.
  injection Hha as ->. destruct (data hac') as [d|]; simpl; [|done].
  by rewrite Hexp.
Qed.

Lemma setup_sids_depend_on_names_and_ha_data_at_sample :
  option_map (map (fun e => (unique_id e, _sid e)))
    (async_setup_entry Sample.const
       (Sample.setup_config_entry Sample.const "entry"
          Sample.other_coordinator Sample.ha_coordinator))
  = option_map (map (fun e => (unique_id e, _sid e)))
      (async_setup_entry Sample.const
         (Sample.setup_config_entry Sample.const "entry"
            Sample.ha_coordinator Sample.other_coordinator)).
Proof.
  apply setup_sids_depend_on_names_and_ha_data; try reflexivity.
  intros name. unfold Sample.setup_config_entry, Sample.setup_coordinators.
  cbn [runtime_data_COORDINATORS].
  rewrite !lookup_insert. repeat case_decide; try done.
Defined.

(** ** The entity's properties, together *)

(** X5: an entity is available exactly when its base entity is and it reads
    a definite current option. *)
Theorem available_current_option (super_available : bool)
    (co : ProxmoxHACoordinator) (self : ProxmoxHASelectEntity) :
  available super_available co self
  = super_available && bool_decide (is_Some (current_option co self)).
Proof.
  unfold available, current_option, dict_in. f_equal.
  destruct (data co) as [d|]; [|done].
  destruct (d !! _sid self) as [resource|]; [|done].
  rewrite !bool_decide_eq_true_2; [done|by eexists|by eexists].
Qed.

(** ** All the outcomes of [async_select_option] *)

Lemma select_option_valid_writes (c : Const)
    (put_api : ProxmoxAPI → string → string → option exn)
    (async_request_refresh : ProxmoxHACoordinator → ProxmoxHACoordinator)
    (self : ProxmoxHASelectEntity) (option : string) (w : World) :
  Py.str_in option (ha_state_values c) = true →
  ∃ rest,
    trace (async_select_option c put_api async_request_refresh
             self option w).2
    = (trace w ++ put_of self option :: rest)%list.
Proof.
  intros Hv.
  destruct (put_api (get_api_client (_proxmox_client self)) (path_of self)
              option) as [error|] eqn:Hp.
  - rewrite (select_option_write_raises _ _ _ _ _ _ _ Hv Hp). by exists [].
  - rewrite (select_option_written _ _ _ _ _ _ Hv Hp). by eexists.
Qed.

(** X6: the calls of any invocation: one write call when the option is a
    member of the enumeration and none otherwise; one refresh request when
    the invocation returns and none when it raises; and it returns exactly
    when the option is valid and the write call returned. *)
Theorem select_option_calls (c : Const)
    (put_api : ProxmoxAPI → string → string → option exn)
    (async_request_refresh : ProxmoxHACoordinator → ProxmoxHACoordinator)
    (self : ProxmoxHASelectEntity) (option : string) (w : World) :
  let r := async_select_option c put_api async_request_refresh
             self option w in
  write_calls (trace r.2)
  = (write_calls (trace w) ++
     if Py.str_in option (ha_state_values c)
     then [(get_api_client (_proxmox_client self),
            "cluster/ha/resources/" +:+ _sid self, option)]
     else [])%list
  ∧ refresh_requests (trace r.2)
    = refresh_requests (trace w)
      + match r.1 with inr _ => 1 | inl _ => 0 end
  ∧ (r.1 = inr tt
     ↔ Py.str_in option (ha_state_values c) = true
       ∧ put_api (get_api_client (_proxmox_client self))
                 ("cluster/ha/resources/" +:+ _sid self) option = None).
Proof.
  intros r. subst r.
  destruct (Py.str_in option (ha_state_values c)) eqn:Hv.
  - destruct (put_api (get_api_client (_proxmox_client self))
                (path_of self) option) as [error|] eqn:Hp.
    + rewrite (select_option_write_raises _ _ _ _ _ _ _ Hv Hp).
      cbn [fst snd trace]. rewrite write_calls_app, refresh_requests_app.
      unfold path_of in Hp. rewrite Hp. cbn.
      split; [done|]. split; [|split; [by destruct error|by intros [_ ?]]].
      by destruct error.
    + rewrite (select_option_written _ _ _ _ _ _ Hv Hp).
      cbn [fst snd trace]. rewrite write_calls_app, refresh_requests_app.
      unfold path_of in Hp. rewrite Hp. cbn. done.
  - rewrite (select_option_invalid _ _ _ _ _ _ Hv). cbn [fst snd].
    rewrite app_nil_r. split; [done|]. split; [lia|]. by split; [|intros [? _]].
Qed.


(** X8: neither a [ResourceException] nor a [ConnectTimeout] ever leaves
    [async_select_option]: whatever the write call does, the caller does not
    see these two kinds. *)
Theorem select_option_hides_api_errors (c : Const)
    (put_api : ProxmoxAPI → string → string → option exn)
    (async_request_refresh : ProxmoxHACoordinator → ProxmoxHACoordinator)
    (self : ProxmoxHASelectEntity) (option : string) (w : World)
    (m : string) :
  let r := async_select_option c put_api async_request_refresh
             self option w in
  r.1 ≠ inl (ResourceException m) ∧ r.1 ≠ inl (ConnectTimeout m).
Proof.
  intros r. subst r.
  destruct (Py.str_in option (ha_state_values c)) eqn:Hv.
  - destruct (put_api (get_api_client (_proxmox_client self))
                (path_of self) option) as [error|] eqn:Hp.
    + rewrite (select_option_write_raises _ _ _ _ _ _ _ Hv Hp).
      by destruct error.
    + by rewrite (select_option_written _ _ _ _ _ _ Hv Hp).
  - by rewrite (select_option_invalid _ _ _ _ _ _ Hv).
Qed.

(** X9: an exception of the write call that is neither a
    [ResourceException] nor a [ConnectTimeout] reaches the caller as it is,
    not wrapped; the write call is the only call made, no refresh is
    requested and the coordinator is as it was. *)
Theorem select_option_other_error_propagates (c : Const)
    (put_api : ProxmoxAPI → string → string → option exn)
    (async_request_refresh : ProxmoxHACoordinator → ProxmoxHACoordinator)
    (self : ProxmoxHASelectEntity) (option : string) (w : World)
    (error : exn) :
  Py.str_in option (ha_state_values c) = true →
  put_api (get_api_client (_proxmox_client self))
          ("cluster/ha/resources/" +:+ _sid self) option = Some error →
  (∀ m, error ≠ ResourceException m) →
  (∀ m, error ≠ ConnectTimeout m) →
  async_select_option c put_api async_request_refresh self option w
  = (inl error,
     {| trace := trace w ++
                 [PutApi (get_api_client (_proxmox_client self))
                         ("cluster/ha/resources/" +:+ _sid self) option];
        coordinator := coordinator w |}).
Proof.
  intros Hv Hp Hr Ht.
  rewrite (select_option_write_raises _ _ _ _ _ _ _ Hv Hp).
  destruct error as [m|m|m|m cause]; try done.
  - by destruct (Hr m).
  - by destruct (Ht m).
Qed.

Lemma select_option_other_error_propagates_at_sample :
  async_select_option Sample.const
    (fun _ _ _ => Some (OtherException "connection reset"))
    Sample.refresh_with_payload Sample.entity "stopped" Sample.world
  = (inl (OtherException "connection reset"),
     {| trace := [PutApi {| api_id := 0 |} "cluster/ha/resources/vm:101"
                         "stopped"];
        coordinator := Sample.ha_coordinator |}).
Proof.
  apply (select_option_other_error_propagates Sample.const
           (fun _ _ _ => Some (OtherException "connection reset"))
           Sample.refresh_with_payload Sample.entity "stopped" Sample.world
           (OtherException "connection reset")).
  - reflexivity.
  - reflexivity.
  - intros m H. discriminate H.
  - intros m H. discriminate H.
Defined.

(** X10: setup and selection together: for an entity that a setup created
    and an option of the list the entity publishes, the invocation makes the
    write call with the config entry's client, to the path of the entity's
    resource, [cluster/ha/resources/vm:<id>] for a configured VM and
    [cluster/ha/resources/ct:<id>] for a configured container. *)
Theorem setup_entity_select_option_writes (c : Const)
    (put_api : ProxmoxAPI → string → string → option exn)
    (async_request_refresh : ProxmoxHACoordinator → ProxmoxHACoordinator)
    (config_entry : ConfigEntry) (selects : list ProxmoxHASelectEntity)
    (e : ProxmoxHASelectEntity) (option : string) (w : World) :
  async_setup_entry c config_entry = Some selects →
  e ∈ selects →
  In option (options (entity_description e)) →
  ∃ id rest,
    ((id ∈ data_CONF_QEMU config_entry ∧ _sid e = "vm:" +:+ id)
     ∨ (id ∈ data_CONF_LXC config_entry ∧ _sid e = "ct:" +:+ id))
    ∧ trace (async_select_option c put_api async_request_refresh
               e option w).2
      = (trace w ++
         PutApi (get_api_client (runtime_data_PROXMOX_CLIENT config_entry))
                ("cluster/ha/resources/" +:+ _sid e) option :: rest)%list.
Proof.
  intros (hac & d & _ & _ & ->)%setup_some Hin Hopt.
  apply elem_of_expected_selects in Hin
    as [(id & Hid & _ & ->)|(id & Hid & _ & ->)];
    cbn [entity_for entity_description PROXMOX_SELECT_HA_STATE options]
      in Hopt;
    apply str_in_In in Hopt.
  - destruct (select_option_valid_writes c put_api async_request_refresh
                (entity_for c config_entry "vm:" (ProxmoxType_QEMU c) id)
                option w Hopt) as [rest Hrest].
    exists id, rest. split; [by left|exact Hrest].
  - destruct (select_option_valid_writes c put_api async_request_refresh
                (entity_for c config_entry "ct:" (ProxmoxType_LXC c) id)
                option w Hopt) as [rest Hrest].
    exists id, rest. split; [by right|exact Hrest].
Qed.

Lemma setup_entity_select_option_writes_at_sample :
  ∃ id rest,
    ((id ∈ ["101"] ∧ "ct:100" = "vm:" +:+ id)
     ∨ (id ∈ ["100"] ∧ "ct:100" = "ct:" +:+ id))
    ∧ trace (async_select_option Sample.const Sample.put_api_ok
               Sample.refresh_with_payload
               (entity_for Sample.const
                  (Sample.setup_config_entry Sample.const "entry"
                     Sample.other_coordinator Sample.other_coordinator)
                  "ct:" "lxc" "100")
               "disabled" Sample.world).2
      = ([] ++ PutApi {| api_id := 0 |} "cluster/ha/resources/ct:100"
                 "disabled" :: rest)%list.
Proof.
  apply (setup_entity_select_option_writes Sample.const Sample.put_api_ok
           Sample.refresh_with_payload
           (Sample.setup_config_entry Sample.const "entry"
              Sample.other_coordinator Sample.other_coordinator)
           [entity_for Sample.const
              (Sample.setup_config_entry Sample.const "entry"
                 Sample.other_coordinator Sample.other_coordinator)
              "vm:" "qemu" "101";
            entity_for Sample.const
              (Sample.setup_config_entry Sample.const "entry"
                 Sample.other_coordinator Sample.other_coordinator)
              "ct:" "lxc" "100"]
           (entity_for Sample.const
              (Sample.setup_config_entry Sample.const "entry"
                 Sample.other_coordinator Sample.other_coordinator)
              "ct:" "lxc" "100")
           "disabled" Sample.world).
  - reflexivity.
  - apply list_elem_of_In. right. left. reflexivity.
  - cbn. right. right. left. reflexivity.
Defined.

(** X11: the unique id of an entity has the identifier in it and not the
    resource type: an identifier that is configured as a VM and as a
    container, and qualifies as both, gets two entities, for two different
    resources, with one and the same unique id. *)
Theorem setup_unique_id_shared_across_types (c : Const)
    (config_entry : ConfigEntry) (ha_coordinator : ProxmoxHACoordinator)
    (ha_resources : gmap string ProxmoxHAResourceData) (id : string) :
  id ∈ data_CONF_QEMU config_entry →
  id ∈ data_CONF_LXC config_entry →
  runtime_data_COORDINATORS config_entry
    !! (ProxmoxType_Resources c +:+ "_ha") = Some ha_coordinator →
  data ha_coordinator = Some ha_resources →
  qualifies "vm:" (ProxmoxType_QEMU c) ha_resources
    (runtime_data_COORDINATORS config_entry) id = true →
  qualifies "ct:" (ProxmoxType_LXC c) ha_resources
    (runtime_data_COORDINATORS config_entry) id = true →
  ∃ selects e1 e2,
    async_setup_entry c config_entry = Some selects
    ∧ e1 ∈ selects ∧ e2 ∈ selects
    ∧ _sid e1 = "vm:" +:+ id ∧ _sid e2 = "ct:" +:+ id
    ∧ _sid e1 ≠ _sid e2
    ∧ unique_id e1 = unique_id e2.
Proof.
  intros Hq Hl Hha Hd Hvm Hct.
  exists (expected_selects c config_entry ha_resources),
         (entity_for c config_entry "vm:" (ProxmoxType_QEMU c) id),
         (entity_for c config_entry "ct:" (ProxmoxType_LXC c) id).
  split. { rewrite async_setup_entry_expected, Hha. simpl. by rewrite Hd. }
  split; [apply elem_of_expected_selects; left; by exists id|].
  split; [apply elem_of_expected_selects; right; by exists id|].
  split; [done|]. split; [done|]. split; [|done].
  cbn [entity_for _sid]. intros H.
  change (String "v" (String "m" (String ":" id))
          = String "c" (String "t" (String ":" id))) in H.
  discriminate H.
Qed.

Lemma setup_unique_id_shared_across_types_at_sample :
  ∃ selects e1 e2,
    async_setup_entry Sample.const Sample.shared_id_config_entry
      = Some selects
    ∧ e1 ∈ selects ∧ e2 ∈ selects
    ∧ _sid e1 = "vm:" +:+ "101" ∧ _sid e2 = "ct:" +:+ "101"
    ∧ _sid e1 ≠ _sid e2
    ∧ unique_id e1 = unique_id e2.
Proof.
  apply (setup_unique_id_shared_across_types Sample.const
           Sample.shared_id_config_entry
           Sample.shared_id_ha_coordinator Sample.shared_id_snapshot "101").
  - apply list_elem_of_In. left. reflexivity.
  - apply list_elem_of_In. left. reflexivity.
  - reflexivity.
  - reflexivity.
  - reflexivity.
  - reflexivity.
Defined.
